(** * Customer Feedback Sentiment Analyzer: a shallow embedding of [sentiment.py]

    The script generates themed review sentences from fixed vocabulary pools
    with Python's [random] module, scores every sentence with a lexicon-based
    analyzer ([sia.polarity_scores]) and counts the labels.

    - Python [str] values are [string]s; the pools are [list string].
    - Python [float]s are binary64 primitive floats, so the thresholds
      [0.05] and [-0.05] are the very doubles Python compares against.
    - The pseudo-random source is an explicit tape of raw draws that is
      threaded through the generator; quantifying over tapes covers every
      outcome of [random.choice] and [random.random].
    - A Python exception is the [Raised] outcome of a computation. *)

From Stdlib Require Import String Ascii List Bool Arith ZArith NArith Lia Floats.
Import ListNotations.

Set Warnings "-inexact-float".

Local Open Scope list_scope.
Local Open Scope string_scope.

(* ------------------------------------------------------------------ *)
(** ** Python string helpers used by the templates *)
(* ------------------------------------------------------------------ *)

Module PyStr.

(** [str.isspace] on the code points below 128: TAB..CR, FS..US and the
    space.  Every string the generator builds is ASCII. *)
Definition is_space (c : ascii) : bool :=
  let n := nat_of_ascii c in
  (((9 <=? n) && (n <=? 13)) || ((28 <=? n) && (n <=? 32)))%nat.

(** [str.lower] on ASCII letters. *)
Definition lower_ascii (c : ascii) : ascii :=
  let n := nat_of_ascii c in
  if ((65 <=? n) && (n <=? 90))%nat then ascii_of_nat (n + 32) else c.

Fixpoint lower (s : string) : string :=
  match s with
  | EmptyString => EmptyString
  | String c r => String (lower_ascii c) (lower r)
  end.

Fixpoint lstrip (s : string) : string :=
  match s with
  | EmptyString => EmptyString
  | String c r => if is_space c then lstrip r else s
  end.

Definition is_empty (s : string) : bool :=
  match s with EmptyString => true | String _ _ => false end.

Fixpoint rstrip (s : string) : string :=
  match s with
  | EmptyString => EmptyString
  | String c r =>
      let r' := rstrip r in
      if is_space c && is_empty r' then EmptyString else String c r'
  end.

(** [s.strip()] with no argument. *)
Definition strip (s : string) : string := rstrip (lstrip s).

(** [s.split()] with no argument: the maximal runs of non-space
    characters.  [cur] is the run being read. *)
Fixpoint split_from (s cur : string) : list string :=
  match s with
  | EmptyString => if is_empty cur then [] else [cur]
  | String c r =>
      if is_space c then
        if is_empty cur then split_from r EmptyString
        else cur :: split_from r EmptyString
      else split_from r (cur ++ String c EmptyString)
  end.

Definition split (s : string) : list string := split_from s EmptyString.

(** [s.endswith(suffix)]. *)
Fixpoint endswith (s suffix : string) : bool :=
  (s =? suffix) ||
  match s with
  | EmptyString => false
  | String _ r => endswith r suffix
  end.

(** [sub in s]: [sub] occurs in [s] as a contiguous run. *)
Definition Substring (sub s : string) : Prop :=
  exists pre post, s = pre ++ sub ++ post.

End PyStr.

(* ------------------------------------------------------------------ *)
(** ** Computations: a random tape and Python exceptions *)
(* ------------------------------------------------------------------ *)

Inductive exn : Set :=
| IndexError   (* random.choice on an empty sequence *)
| KeyError     (* a frame asked for a column it does not have *)
| ValueError.  (* two columns set from a value that is not two columns wide *)

Inductive outcome (A : Type) : Type :=
| Returned (a : A)
| Raised (e : exn).
Arguments Returned {A} a.
Arguments Raised {A} e.

(** The state of the [random] module: the raw draws still to come.  An
    exhausted tape keeps answering 0. *)
Definition rng : Type := list N.

Definition M (A : Type) : Type := rng -> outcome A * rng.

Definition ret {A} (a : A) : M A := fun g => (Returned a, g).

Definition raise {A} (e : exn) : M A := fun g => (Raised e, g).

(** A step that does not touch the random source. *)
Definition lift {A} (o : outcome A) : M A := fun g => (o, g).

Definition bind {A B} (m : M A) (k : A -> M B) : M B :=
  fun g =>
    match m g with
    | (Returned a, g') => k a g'
    | (Raised e, g') => (Raised e, g')
    end.

Notation "x <- m ;; k" := (bind m (fun x => k))
  (at level 61, m at next level, right associativity).
Notation "' p <- m ;; k" := (bind m (fun x => match x with p => k end))
  (at level 61, p pattern, m at next level, right associativity).

Module Random.

Definition draw : M N :=
  fun g => match g with
           | [] => (Returned 0%N, [])
           | k :: g' => (Returned k, g')
           end.

(** [random._randbelow(n)] for [n > 0]: some integer in [0, n). *)
Definition randbelow (n : nat) : M nat :=
  k <- draw ;; ret (N.to_nat (k mod N.of_nat n)).

(** [random.choice(seq)]: [IndexError] on an empty sequence, otherwise
    [seq[randbelow(len(seq))]]. *)
Definition choice {A} (seq : list A) : M A :=
  match seq with
  | [] => raise IndexError
  | _ :: _ =>
      i <- randbelow (length seq) ;;
      match nth_error seq i with
      | Some x => ret x
      | None => raise IndexError
      end
  end.

(** [random.random()]: a 53-bit integer scaled by 2^-53, a double in
    [0.0, 1.0). *)
Definition random : M float :=
  k <- draw ;;
  ret (PrimFloat.of_uint63 (Uint63.of_Z (Z.of_N (k mod 9007199254740992)))
       / 9007199254740992)%float.

End Random.

(* ------------------------------------------------------------------ *)
(** ** Review generator (lines 102-136) *)
(* ------------------------------------------------------------------ *)

Definition subjects : list string :=
  ["I"; "We"; "My friend"; "The team"; "Customer service"; "The product";
   "The staff"; "Our experience"].
Definition verbs_positive : list string :=
  ["loved"; "enjoyed"; "appreciated"; "valued"; "adored"; "found excellent"].
Definition verbs_negative : list string :=
  ["hated"; "disliked"; "was disappointed by"; "was frustrated by";
   "couldn't enjoy"].
Definition verbs_neutral : list string :=
  ["experienced"; "noticed"; "found"; "tried"; "observed"; "encountered"].
Definition objects_weather : list string :=
  ["the sunny day"; "the rain"; "stormy conditions"; "the cold weather";
   "the heatwave"].
Definition objects_service : list string :=
  ["the staff"; "the support team"; "the customer service"; "the assistance";
   "the guidance"].
Definition objects_feedback : list string :=
  ["the process"; "the feedback system"; "the form"; "the survey";
   "the response"].
Definition objects_reviews : list string :=
  ["the review process"; "the opinions shared"; "the ratings"; "the comments";
   "the evaluations"].
Definition adjectives : list string :=
  ["amazing"; "terrible"; "okay"; "fantastic"; "poor"; "average"; "excellent";
   "mediocre"; "satisfying"; "disappointing"].
Definition contexts : list string :=
  ["during a rainy afternoon"; "on a sunny morning"; "after a long wait";
   "before the storm"; "while deciding"; "after reviewing all options"].

Definition verbs : list string :=
  (verbs_positive ++ verbs_negative ++ verbs_neutral)%list.

(** The five f-strings of [templates], in order. *)
Definition templates (subj verb obj adj context : string) : list string :=
  [ subj ++ " " ++ verb ++ " " ++ obj ++ ". It was " ++ adj ++ " " ++ context ++ ".";
    PyStr.strip ("Overall, " ++ PyStr.lower subj ++ " " ++ verb ++ " " ++ obj
                 ++ " and found it " ++ adj ++ ". " ++ context);
    subj ++ " felt that " ++ obj ++ " was " ++ adj ++ ". " ++ context;
    "In my opinion, " ++ obj ++ " was " ++ adj ++ " " ++ context ++ ". "
      ++ subj ++ " " ++ verb ++ " it thoroughly.";
    subj ++ " would say the " ++ obj ++ " was " ++ adj ++ ". " ++ context ++ "." ].

Definition generate_fluent_review (theme_name : string) : M string :=
  subj <- Random.choice subjects ;;
  '(verb, obj) <-
    (if theme_name =? "Weather" then
       verb <- Random.choice verbs ;;
       obj <- Random.choice objects_weather ;;
       ret (verb, obj)
     else if theme_name =? "Service" then
       verb <- Random.choice verbs ;;
       obj <- Random.choice objects_service ;;
       ret (verb, obj)
     else if theme_name =? "Feedback" then
       verb <- Random.choice verbs ;;
       obj <- Random.choice objects_feedback ;;
       ret (verb, obj)
     else
       verb <- Random.choice verbs ;;
       obj <- Random.choice objects_reviews ;;
       ret (verb, obj)) ;;
  adj <- Random.choice adjectives ;;
  u <- Random.random ;;
  context <- (if (u <? 0.6)%float then Random.choice contexts else ret "") ;;
  Random.choice (templates subj verb obj adj context).

(** The pool a theme draws its object from (lines 115-126). *)
Definition theme_objects (theme_name : string) : list string :=
  if theme_name =? "Weather" then objects_weather
  else if theme_name =? "Service" then objects_service
  else if theme_name =? "Feedback" then objects_feedback
  else objects_reviews.

(* ------------------------------------------------------------------ *)
(** ** The generation action (lines 139-144) *)
(* ------------------------------------------------------------------ *)

(** [range(n)]: empty when [n <= 0]. *)
Definition range (n : Z) : list Z := map Z.of_nat (seq 0 (Z.to_nat n)).

(** A list comprehension whose body draws from the random source. *)
Fixpoint comprehension {A B} (body : A -> M B) (l : list A) : M (list B) :=
  match l with
  | [] => ret []
  | a :: l' =>
      b <- body a ;;
      bs <- comprehension body l' ;;
      ret (b :: bs)
  end.

(** [[generate_fluent_review(theme) for _ in range(num_reviews)]] *)
Definition reviews (theme : string) (num_reviews : Z) : M (list string) :=
  comprehension (fun _ => generate_fluent_review theme) (range num_reviews).

(* ------------------------------------------------------------------ *)
(** ** Sentiment analysis (lines 149-169) *)
(* ------------------------------------------------------------------ *)

(** The dict returned by [sia.polarity_scores]; the script reads its
    ["compound"] entry only. *)
Record scores : Set := { compound : float }.

Record row : Set := {
  review : string;
  sentiment : string;
  confidence : float
}.

Record report : Set := {
  total : nat;
  pos : nat;
  neg : nat;
  neu : nat;
  table : list row
}.

Section Analysis.

(** The analyzer object [sia] built at start-up. *)
Variable polarity_scores : string -> scores.

(** [compound >= 0.05] is the double comparison [0.05 <= compound]; both
    tests fail on a NaN, which then falls to the last branch as in Python. *)
Definition analyze_sentiment (text : string) : string * float :=
  let scores := polarity_scores text in
  let compound := compound scores in
  if (0.05 <=? compound)%float then ("Positive", compound)
  else if (compound <=? -0.05)%float then ("Negative", compound)
  else ("Neutral", compound).

(** The rows [df["review"].apply(lambda x: pd.Series(analyze_sentiment(str(x))))]
    yields, beside the reviews they belong to: one per review, in order. *)
Definition labelled_rows (df_generated : list string) : list row :=
  map (fun x =>
         let '(label, c) := analyze_sentiment x in
         {| review := x; sentiment := label; confidence := c |})
      df_generated.

(** [df[["sentiment","confidence"]] = df["review"].apply(...)] (line 162).
    On a frame without rows [apply] yields an empty Series, which is not two
    columns wide, and the assignment raises [ValueError]. *)
Definition score_rows (df_generated : list string) : outcome (list row) :=
  match df_generated with
  | [] => Raised ValueError
  | _ :: _ => Returned (labelled_rows df_generated)
  end.

(** [(df["sentiment"] == label).sum()] *)
Definition count_label (label : string) (df : list row) : nat :=
  length (filter (fun r => sentiment r =? label) df).

(** Lines 162-169: the scored frame and the four metrics; nothing is
    computed when line 162 raises. *)
Definition analysis (df_generated : list string) : outcome report :=
  match score_rows df_generated with
  | Raised e => Raised e
  | Returned df =>
      Returned {| total := length df;
                  pos := count_label "Positive" df;
                  neg := count_label "Negative" df;
                  neu := count_label "Neutral" df;
                  table := df |}
  end.

End Analysis.

(* ------------------------------------------------------------------ *)
(** ** One run of the script *)
(* ------------------------------------------------------------------ *)

(** What the browser reports for the widgets of one run. *)
Record widgets : Set := {
  refresh_clicked : bool;
  theme_index : nat;
  slider_value : option Z;
  generate_clicked : bool
}.

(** [st.session_state]: the ["df_generated"] entry, when present.  The
    script adds the two sentiment columns to the stored frame in place; they
    are recomputed from the review column on every run, so the entry is kept
    as that column. *)
Definition session_state : Set := option (list string).

Module St.

(** [st.selectbox(label, options)]: the selected option, the first one
    until the user picks another. *)
Definition selectbox (options : list string) (index : nat) : string :=
  nth index options (hd "" options).

(** Modelled from the spec: the count widget of the presentation layer,
    Streamlit's [st.slider(label, min_value, max_value, value)], which the
    script imports and [src/] does not hold.  It yields an integer count: the
    default [value] until the user moves the handle, the reported value when
    it lies within the bounds, and the default again when it does not. *)
Definition slider (min_value max_value value : Z) (ui : option Z) : M Z :=
  match ui with
  | None => ret value
  | Some v =>
      if ((min_value <=? v) && (v <=? max_value))%Z then ret v
      else ret value
  end.

End St.

Definition themes : list string := ["Weather"; "Service"; "Feedback"; "Reviews"].

Definition num_reviews (w : widgets) : M Z := St.slider 5 20 5 (slider_value w).

Section Script.

Variable polarity_scores : string -> scores.

Definition script (w : widgets) (state : session_state)
  : M (session_state * option report) :=
  let state := if refresh_clicked w then None else state in
  let theme := St.selectbox themes (theme_index w) in
  num_reviews <- num_reviews w ;;
  state <- (if generate_clicked w then
              reviews <- reviews theme num_reviews ;;
              ret (Some reviews)
            else ret state) ;;
  match state with
  | Some df_generated =>
      r <- lift (analysis polarity_scores df_generated) ;;
      ret (state, Some r)
  | None => ret (state, None)
  end.

(** Lines 139-169 as a click on Generate runs them, with the theme and the
    count as arguments: generate the batch, store it, score it. *)
Definition generate_and_score (theme : string) (num_reviews : Z)
  : M (session_state * option report) :=
  reviews <- reviews theme num_reviews ;;
  r <- lift (analysis polarity_scores reviews) ;;
  ret (Some reviews, Some r).

End Script.

(* ------------------------------------------------------------------ *)
(** ** The lexicon analyzer behind [sia] *)
(* ------------------------------------------------------------------ *)

Module Lexicon.
Section Scorer.

(** The fixed mapping from words to valence scores. *)
Variable lexicon : string -> option float.
(** The modifier heuristics (intensifiers, negation, capitalization)
    applied to the valence of the [i]-th token in its sentence. *)
Variable heuristics : list string -> nat -> float -> float.
(** The punctuation emphasis of a text. *)
Variable punctuation_emphasis : string -> float.

(** Modelled from the spec: the token-level valence of NLTK's
    [SentimentIntensityAnalyzer], which the script imports and [src/] does
    not hold.  A token the lexicon does not know has valence 0. *)
Definition valence (tokens : list string) (i : nat) (w : string) : float :=
  match lexicon (PyStr.lower w) with
  | Some v => heuristics tokens i v
  | None => 0%float
  end.

Fixpoint valences_from (tokens : list string) (i : nat) (ws : list string)
  : list float :=
  match ws with
  | [] => []
  | w :: ws' => valence tokens i w :: valences_from tokens (S i) ws'
  end.

Definition sentiments (text : string) : list float :=
  let tokens := PyStr.split text in
  valences_from tokens 0 tokens.

(** Modelled from the spec: the analyzer's standard normalization of a
    summed valence into [-1.0, 1.0]. *)
Definition normalize (score : float) : float :=
  let norm := (score / PrimFloat.sqrt (score * score + 15))%float in
  if (norm <? -1)%float then (-1)%float
  else if (1 <? norm)%float then 1%float
  else norm.

(** Modelled from the spec: the compound score of NLTK's analyzer, the
    per-token valences combined with punctuation emphasis and normalized;
    a text without tokens scores 0.0. *)
Definition compound_score (text : string) : float :=
  match sentiments text with
  | [] => 0%float
  | ss =>
      let sum_s := fold_left PrimFloat.add ss 0%float in
      let sum_s :=
        if (0 <? sum_s)%float then (sum_s + punctuation_emphasis text)%float
        else if (sum_s <? 0)%float then (sum_s - punctuation_emphasis text)%float
        else sum_s in
      normalize sum_s
  end.

(** Modelled from the spec: [sia.polarity_scores(text)] of NLTK's
    analyzer, reduced to the entry the script reads. *)
Definition polarity_scores (text : string) : scores :=
  {| compound := compound_score text |}.

(** Every token of [text] is absent from the lexicon. *)
Definition lexicon_unknown (text : string) : Prop :=
  Forall (fun w => lexicon (PyStr.lower w) = None) (PyStr.split text).

End Scorer.
End Lexicon.

(** A lexicon that knows two words, for worked examples. *)
Definition toy_lexicon (w : string) : option float :=
  if w =? "fantastic" then Some 3.4%float
  else if w =? "terrible" then Some (-2.1)%float
  else None.

(* ------------------------------------------------------------------ *)
(** ** Chart data (lines 178-182) *)
(* ------------------------------------------------------------------ *)

(** A stable insertion sort, for [value_counts] and [sort_values]. *)
Fixpoint insert_by {A} (le : A -> A -> bool) (x : A) (l : list A) : list A :=
  match l with
  | [] => [x]
  | y :: r => if le x y then x :: l else y :: insert_by le x r
  end.

Fixpoint sort_by {A} (le : A -> A -> bool) (l : list A) : list A :=
  match l with
  | [] => []
  | x :: r => insert_by le x (sort_by le r)
  end.

Module Pandas.

(** The distinct values of a column, in order of first appearance. *)
Fixpoint unique (col : list string) : list string :=
  match col with
  | [] => []
  | x :: r => x :: filter (fun y => negb (y =? x)) (unique r)
  end.

Definition count_in (col : list string) (v : string) : nat :=
  length (filter (fun y => y =? v) col).

(** [col.value_counts().reset_index()]: one row per distinct value with its
    number of occurrences, the most frequent first. *)
Definition value_counts (col : list string) : list (string * nat) :=
  sort_by (fun a b => snd b <=? snd a)%nat
          (map (fun v => (v, count_in col v)) (unique col)).

(** The code of a value in an ordered categorical: its position among the
    categories; a value outside them has none (it reads as NaN). *)
Fixpoint category_code (categories : list string) (v : string) : option nat :=
  match categories with
  | [] => None
  | c :: r => if v =? c then Some 0 else option_map S (category_code r v)
  end.

(** [pd.Categorical(values, categories=..., ordered=True)] on one value. *)
Definition categorical (categories : list string) (v : string) : option string :=
  match category_code categories v with
  | Some _ => Some v
  | None => None
  end.

(** The order [sort_values] uses on a categorical column: by code, values
    without a code last. *)
Definition category_le (categories : list string) (a b : option string) : bool :=
  match a, b with
  | Some x, Some y =>
      match category_code categories x, category_code categories y with
      | Some i, Some j => (i <=? j)%nat
      | Some _, None => true
      | None, Some _ => false
      | None, None => true
      end
  | Some _, None => true
  | None, Some _ => false
  | None, None => true
  end.

End Pandas.

Definition sentiment_order : list string := ["Positive"; "Neutral"; "Negative"].

(** The frame handed to [px.bar]: the label counts, the labels made
    categorical and the rows sorted by label. *)
Definition sentiment_counts (df : list row) : list (option string * nat) :=
  let sentiment_counts := Pandas.value_counts (map sentiment df) in
  let sentiment_counts :=
    map (fun r => (Pandas.categorical sentiment_order (fst r), snd r))
        sentiment_counts in
  sort_by (fun a b => Pandas.category_le sentiment_order (fst a) (fst b))
          sentiment_counts.

(* ------------------------------------------------------------------ *)
(** ** Column order of the displayed table (lines 162-164) *)
(* ------------------------------------------------------------------ *)





(* ------------------------------------------------------------------ *)
(** ** Successive runs *)
(* ------------------------------------------------------------------ *)

Section Runs.

Variable polarity_scores : string -> scores.

(** Streamlit runs the script again on every interaction; the session
    state is what one run leaves to the next.  [runs] returns the last
    session state and what each run displayed.  A run that raises ends the
    sequence. *)
Fixpoint runs (ws : list widgets) (state : session_state)
  : M (session_state * list (option report)) :=
  match ws with
  | [] => ret (state, [])
  | w :: ws' =>
      '(state', shown) <- script polarity_scores w state ;;
      '(state'', rest) <- runs ws' state' ;;
      ret (state'', shown :: rest)
  end.

End Runs.


(** A run in which neither button is clicked; the theme and the slider may
    have been changed. *)
Definition idle (w : widgets) : Prop :=
  refresh_clicked w = false /\ generate_clicked w = false.

(* ------------------------------------------------------------------ *)
(** ** The generator, one pool at a time *)
(* ------------------------------------------------------------------ *)

(** The position [random.choice] reads in a sequence of length [n]. *)
Definition pick_index (n : nat) (g : rng) : nat :=
  N.to_nat (hd 0%N g mod N.of_nat n).

(** The body the four branches of [generate_fluent_review] share, with the
    object pool of the branch as an argument. *)
Definition generate_from (pool : list string) : M string :=
  subj <- Random.choice subjects ;;
  verb <- Random.choice verbs ;;
  obj <- Random.choice pool ;;
  adj <- Random.choice adjectives ;;
  u <- Random.random ;;
  context <- (if (u <? 0.6)%float then Random.choice contexts else ret "") ;;
  Random.choice (templates subj verb obj adj context).

(** Every object phrase of the four pools. *)
Definition all_objects : list string :=
  (objects_weather ++ objects_service ++ objects_feedback ++ objects_reviews)%list.

(* ================================================================== *)
(** * Properties *)
(* ================================================================== *)

(** ** Threshold comparisons on doubles *)

Section Thresholds.

Local Open Scope float_scope.

(** No double lies on both sides of the neutral band. *)
Lemma thresholds_exclusive (c : float) :
  (0.05 <=? c) = true -> (c <=? -0.05) = false.
Proof.
  rewrite !FloatAxioms.leb_spec.
  change (Prim2SF 0.05) with (S754_finite false 7205759403792794 (-57)).
  change (Prim2SF (-0.05)) with (S754_finite true 7205759403792794 (-57)).
  destruct (Prim2SF c) as [s | s | | s m e]; try destruct s;
    unfold SFleb, SFcompare; try reflexivity; discriminate.
Qed.

End Thresholds.

(** ** The scorer *)

Section AnalysisFacts.

Variable polarity_scores : string -> scores.

Local Abbreviation analyze := (analyze_sentiment polarity_scores).

Lemma analyze_sentiment_score (text : string) :
  snd (analyze text) = compound (polarity_scores text).
Proof.
  unfold analyze_sentiment.
  destruct (0.05 <=? _)%float; [reflexivity|].
  destruct (_ <=? -0.05)%float; reflexivity.
Qed.

Lemma analyze_sentiment_cases (text : string) :
  let c := compound (polarity_scores text) in
  ((0.05 <=? c)%float = true /\ analyze text = ("Positive", c)) \/
  ((0.05 <=? c)%float = false /\ (c <=? -0.05)%float = true
     /\ analyze text = ("Negative", c)) \/
  ((0.05 <=? c)%float = false /\ (c <=? -0.05)%float = false
     /\ analyze text = ("Neutral", c)).
Proof.
  unfold analyze_sentiment; cbv zeta.
  destruct (0.05 <=? _)%float eqn:Hp; [now left|].
  destruct (_ <=? -0.05)%float eqn:Hn; [right; left | right; right]; auto.
Qed.

Lemma analyze_sentiment_label (text : string) :
  In (fst (analyze text)) ["Positive"; "Neutral"; "Negative"].
Proof.
  destruct (analyze_sentiment_cases text) as [[_ E] | [(_ & _ & E) | (_ & _ & E)]];
    rewrite E; simpl; auto.
Qed.

(** A compound score of exactly 0.0 is labelled Neutral and passed on. *)
Lemma analyze_sentiment_zero (text : string) :
  compound (polarity_scores text) = 0%float ->
  analyze text = ("Neutral", 0%float).
Proof.
  intros E. unfold analyze_sentiment. rewrite E. reflexivity.
Qed.

Lemma labelled_rows_length (df_generated : list string) :
  length (labelled_rows polarity_scores df_generated) = length df_generated.
Proof. unfold labelled_rows. apply length_map. Qed.

Lemma labelled_rows_labels (df_generated : list string) :
  Forall (fun r => In (sentiment r) ["Positive"; "Neutral"; "Negative"])
         (labelled_rows polarity_scores df_generated).
Proof.
  unfold labelled_rows. apply Forall_forall. intros r Hr.
  apply in_map_iff in Hr. destruct Hr as (x & <- & _).
  pose proof (analyze_sentiment_label x) as H.
  destruct (analyze_sentiment polarity_scores x) as [label c]. exact H.
Qed.

Lemma score_rows_nonempty (df_generated : list string) :
  df_generated <> [] ->
  score_rows polarity_scores df_generated
  = Returned (labelled_rows polarity_scores df_generated).
Proof. destruct df_generated; [contradiction | reflexivity]. Qed.

Lemma analysis_nonempty (df_generated : list string) :
  df_generated <> [] ->
  analysis polarity_scores df_generated
  = Returned
      {| total := length (labelled_rows polarity_scores df_generated);
         pos := count_label "Positive" (labelled_rows polarity_scores df_generated);
         neg := count_label "Negative" (labelled_rows polarity_scores df_generated);
         neu := count_label "Neutral" (labelled_rows polarity_scores df_generated);
         table := labelled_rows polarity_scores df_generated |}.
Proof.
  intros H. unfold analysis. now rewrite (score_rows_nonempty _ H).
Qed.

(** A frame without rows is not scored. *)
Lemma analysis_empty : analysis polarity_scores [] = Raised ValueError.
Proof. reflexivity. Qed.

End AnalysisFacts.

(** Rows that carry one of the three labels are counted exactly once. *)
Lemma count_label_partition (df : list row) :
  Forall (fun r => In (sentiment r) ["Positive"; "Neutral"; "Negative"]) df ->
  count_label "Positive" df + count_label "Neutral" df
    + count_label "Negative" df = length df.
Proof.
  unfold count_label. induction 1 as [| r df Hr _ IH]; [reflexivity|].
  simpl in Hr. cbn [filter].
  destruct Hr as [<- | [<- | [<- | []]]]; cbn [String.eqb Ascii.eqb Bool.eqb];
    cbn [length]; lia.
Qed.

(** C1: the label is fixed by the compound score through the two
    thresholds.  The returned score is the analyzer's compound score; the
    label is Positive exactly when the score is >= 0.05, Negative exactly
    when it is <= -0.05 and Neutral exactly when neither holds; so 0.05
    itself is Positive and -0.05 itself is Negative. *)
Theorem analyze_sentiment_thresholds
    (polarity_scores : string -> scores) (text : string) :
  let label := fst (analyze_sentiment polarity_scores text) in
  let score := snd (analyze_sentiment polarity_scores text) in
  score = compound (polarity_scores text) /\
  (label = "Positive" <-> (0.05 <=? score)%float = true) /\
  (label = "Negative" <-> (score <=? -0.05)%float = true) /\
  (label = "Neutral" <->
     (0.05 <=? score)%float = false /\ (score <=? -0.05)%float = false) /\
  (score = 0.05%float -> label = "Positive") /\
  (score = (-0.05)%float -> label = "Negative").
Proof.
  cbv zeta.
  destruct (analyze_sentiment_cases polarity_scores text)
    as [[Hp E] | [(Hp & Hn & E) | (Hp & Hn & E)]];
    cbv zeta in *; rewrite E; cbn [fst snd];
    set (c := compound (polarity_scores text)) in *.
  - pose proof (thresholds_exclusive c Hp) as Hn.
    repeat split; intros; try congruence; try discriminate.
    + destruct H; congruence.
    + subst c. rewrite H in Hn. discriminate Hn.
  - repeat split; intros; try congruence; try discriminate.
    + destruct H; congruence.
    + rewrite H in Hp. discriminate Hp.
  - repeat split; intros; try congruence; try discriminate.
    + rewrite H in Hp. discriminate Hp.
    + rewrite H in Hn. discriminate Hn.
Qed.

(** ** The lexicon analyzer on text it does not know *)

Section LexiconFacts.

Variable lexicon : string -> option float.
Variable heuristics : list string -> nat -> float -> float.
Variable punctuation_emphasis : string -> float.

Lemma valences_unknown (tokens ws : list string) (i : nat) :
  Forall (fun w => lexicon (PyStr.lower w) = None) ws ->
  Lexicon.valences_from lexicon heuristics tokens i ws
  = repeat 0%float (length ws).
Proof.
  intros H. revert i. induction H as [| w ws Hw _ IH]; intros i.
  - reflexivity.
  - cbn [Lexicon.valences_from length repeat]. unfold Lexicon.valence at 1.
    rewrite Hw, IH. reflexivity.
Qed.

Lemma sum_zeros (n : nat) :
  fold_left PrimFloat.add (repeat 0%float n) 0%float = 0%float.
Proof.
  induction n as [| n IH]; [reflexivity|].
  cbn [repeat fold_left].
  change (0 + 0)%float with 0%float. exact IH.
Qed.

Lemma compound_score_unknown (text : string) :
  Lexicon.lexicon_unknown lexicon text ->
  Lexicon.compound_score lexicon heuristics punctuation_emphasis text
  = 0%float.
Proof.
  intros H. unfold Lexicon.compound_score, Lexicon.sentiments.
  rewrite (valences_unknown _ _ _ H).
  destruct (length (PyStr.split text)) as [| n]; [reflexivity|].
  cbn [repeat].
  change (0%float :: repeat 0%float n) with (repeat 0%float (S n)).
  rewrite sum_zeros. reflexivity.
Qed.

End LexiconFacts.

(** C5: scoring the empty string, and more generally any text none of
    whose tokens the lexicon knows, gives the compound score 0.0 and the
    label Neutral; it is a returned value, not an error. *)
Theorem unknown_text_is_neutral
    (lexicon : string -> option float)
    (heuristics : list string -> nat -> float -> float)
    (punctuation_emphasis : string -> float) :
  let sia := Lexicon.polarity_scores lexicon heuristics punctuation_emphasis in
  analyze_sentiment sia "" = ("Neutral", 0%float) /\
  (forall text : string,
      Lexicon.lexicon_unknown lexicon text ->
      analyze_sentiment sia text = ("Neutral", 0%float)).
Proof.
  cbv zeta. split.
  - reflexivity.
  - intros text H. apply analyze_sentiment_zero.
    apply (compound_score_unknown _ _ _ _ H).
Qed.

Example unknown_text_is_neutral_witness :
  Lexicon.lexicon_unknown toy_lexicon "The Staff  noticed it" /\
  analyze_sentiment
    (Lexicon.polarity_scores toy_lexicon (fun _ _ v => v) (fun _ => 0.292%float))
    "The Staff  noticed it" = ("Neutral", 0%float).
Proof.
  assert (H : Lexicon.lexicon_unknown toy_lexicon "The Staff  noticed it").
  { unfold Lexicon.lexicon_unknown.
    replace (PyStr.split "The Staff  noticed it")
      with ["The"; "Staff"; "noticed"; "it"] by (vm_compute; reflexivity).
    repeat (apply Forall_cons; [vm_compute; reflexivity|]). apply Forall_nil. }
  split; [exact H|].
  exact (proj2 (unknown_text_is_neutral toy_lexicon (fun _ _ v => v)
                  (fun _ => 0.292%float)) _ H).
Defined.

(** C7: for every batch of labeled records, which the scoring step builds
    from a frame that has rows, the per-label counts of the aggregation add
    up to the total, and the total is the number of rows of the batch. *)
Theorem counts_sum_to_total
    (polarity_scores : string -> scores) (df_generated : list string) :
  df_generated <> [] ->
  exists r,
    analysis polarity_scores df_generated = Returned r /\
    pos r + neu r + neg r = total r /\
    total r = length (table r) /\
    total r = length df_generated.
Proof.
  intros Hne. eexists. split; [exact (analysis_nonempty _ _ Hne)|].
  cbn [pos neu neg total table]. split; [| split].
  - apply count_label_partition, labelled_rows_labels.
  - reflexivity.
  - apply labelled_rows_length.
Qed.

Example counts_sum_to_total_witness :
  ["We loved the rain. It was okay ."; "I hated the form. It was poor ."] <> [] /\
  exists r,
    analysis (Lexicon.polarity_scores toy_lexicon (fun _ _ v => v)
                                      (fun _ => 0%float))
             ["We loved the rain. It was okay ."; "I hated the form. It was poor ."]
    = Returned r /\
    pos r + neu r + neg r = total r /\
    total r = length (table r) /\
    total r = 2.
Proof.
  assert (H : ["We loved the rain. It was okay ."; "I hated the form. It was poor ."]
              <> []) by discriminate.
  split; [exact H|].
  exact (counts_sum_to_total _ _ H).
Defined.

(** ** Strings *)

Lemma string_app_assoc (a b c : string) : (a ++ b) ++ c = a ++ b ++ c.
Proof. induction a as [| x a IH]; cbn; [reflexivity | now rewrite IH]. Qed.

Lemma substring_intro (pre sub post : string) :
  PyStr.Substring sub (pre ++ sub ++ post).
Proof. now exists pre, post. Qed.

(** [rstrip] leaves everything up to a non-space character in place. *)
Lemma rstrip_keeps_prefix (pre : string) (c : ascii) (r : string) :
  PyStr.is_space c = false ->
  exists r', PyStr.rstrip (pre ++ String c r) = pre ++ String c r'.
Proof.
  intros Hc. induction pre as [| a pre [r' IH]].
  - exists (PyStr.rstrip r). cbn. rewrite Hc. reflexivity.
  - exists r'. cbn [append PyStr.rstrip]. rewrite IH.
    destruct pre; cbn; rewrite andb_false_r; reflexivity.
Qed.

(** ** Computations *)

Lemma bind_ret {A B} (a : A) (k : A -> M B) (g : rng) :
  bind (ret a) k g = k a g.
Proof. reflexivity. Qed.

Lemma bind_bind {A B C} (m : M A) (f : A -> M B) (k : B -> M C) (g : rng) :
  bind (bind m f) k g = bind m (fun a => bind (f a) k) g.
Proof. unfold bind. destruct (m g) as [[a | e] g']; reflexivity. Qed.

Lemma bind_ext {A B} (m : M A) (k1 k2 : A -> M B) (g : rng) :
  (forall a g', k1 a g' = k2 a g') -> bind m k1 g = bind m k2 g.
Proof.
  intros H. unfold bind. destruct (m g) as [[a | e] g']; [apply H | reflexivity].
Qed.

Lemma bind_returned {A B} (m : M A) (k : A -> M B) (g g' : rng) (a : A) :
  m g = (Returned a, g') -> bind m k g = k a g'.
Proof. unfold bind. now intros ->. Qed.

(** A choice from a non-empty sequence returns one of its members and
    consumes one draw. *)
Lemma choice_returns {A} (l : list A) (g : rng) :
  l <> [] ->
  exists x, In x l /\ Random.choice l g = (Returned x, tl g).
Proof.
  intros Hl. destruct l as [| a l]; [contradiction|].
  unfold Random.choice, Random.randbelow.
  set (n := length (a :: l)).
  assert (Hi : forall k : N, N.to_nat (k mod N.of_nat n) < n).
  { intros k. assert (k mod N.of_nat n < N.of_nat n)%N.
    { apply N.mod_lt. subst n. cbn [length]. lia. }
    lia. }
  assert (Hd : exists k, Random.draw g = (Returned k, tl g)).
  { destruct g as [| k g]; [exists 0%N | exists k]; reflexivity. }
  destruct Hd as [k Hd].
  rewrite bind_bind. rewrite (bind_returned _ _ _ _ _ Hd). rewrite bind_ret.
  destruct (nth_error (a :: l) (N.to_nat (k mod N.of_nat n))) as [x |] eqn:E.
  - exists x. split; [eapply nth_error_In; eassumption | reflexivity].
  - apply nth_error_None in E. specialize (Hi k). fold n in E. lia.
Qed.

Lemma bind_choice {A B} (l : list A) (k : A -> M B) (g : rng) :
  l <> [] ->
  exists x, In x l /\ bind (Random.choice l) k g = k x (tl g).
Proof.
  intros Hl. destruct (choice_returns l g Hl) as (x & Hx & E).
  exists x. split; [exact Hx | exact (bind_returned _ _ _ _ _ E)].
Qed.

Lemma bind_random {B} (k : float -> M B) (g : rng) :
  exists u, bind Random.random k g = k u (tl g).
Proof.
  unfold Random.random. rewrite bind_bind.
  destruct g as [| n g]; eexists; reflexivity.
Qed.

Ltac choose x H :=
  match goal with
  | |- context [bind (Random.choice ?l) ?k ?g] =>
      let E := fresh "E" in
      destruct (bind_choice l k g ltac:(discriminate)) as (x & H & E);
      rewrite E; clear E
  end.

(** Every call of the generator returns a sentence: one of the five
    templates, filled from the pools. *)
Lemma generate_fluent_review_returns (theme_name : string) (g : rng) :
  exists subj verb obj adj context sentence g',
    generate_fluent_review theme_name g = (Returned sentence, g') /\
    In subj subjects /\ In verb verbs /\ In obj (theme_objects theme_name) /\
    In adj adjectives /\ (context = "" \/ In context contexts) /\
    In sentence (templates subj verb obj adj context).
Proof.
  unfold generate_fluent_review, theme_objects.
  choose subj Hsubj.
  assert (Hvo : forall (pool : list string) (k : string * string -> M string) g0,
            pool <> [] ->
            exists verb obj, In verb verbs /\ In obj pool /\
              bind (verb <- Random.choice verbs ;;
                    obj <- Random.choice pool ;; ret (verb, obj)) k g0
              = k (verb, obj) (tl (tl g0))).
  { intros pool k g0 Hp. rewrite bind_bind.
    destruct (bind_choice verbs
                (fun a => bind (obj <- Random.choice pool ;; ret (a, obj)) k)
                g0 ltac:(discriminate)) as (verb & Hverb & ->).
    rewrite bind_bind.
    destruct (bind_choice pool (fun a => bind (ret (verb, a)) k) (tl g0) Hp)
      as (obj & Hobj & ->).
    exists verb, obj. auto. }
  match goal with
  | |- context [bind (if _ then _ else _) ?k ?g0] =>
      assert (Hstep : exists verb obj,
                 In verb verbs /\ In obj (theme_objects theme_name) /\
                 bind (if theme_name =? "Weather" then
                         verb <- Random.choice verbs ;;
                         obj <- Random.choice objects_weather ;; ret (verb, obj)
                       else if theme_name =? "Service" then
                         verb <- Random.choice verbs ;;
                         obj <- Random.choice objects_service ;; ret (verb, obj)
                       else if theme_name =? "Feedback" then
                         verb <- Random.choice verbs ;;
                         obj <- Random.choice objects_feedback ;; ret (verb, obj)
                       else
                         verb <- Random.choice verbs ;;
                         obj <- Random.choice objects_reviews ;; ret (verb, obj))
                   k g0 = k (verb, obj) (tl (tl g0)))
  end.
  { unfold theme_objects.
    destruct (theme_name =? "Weather");
      [| destruct (theme_name =? "Service");
         [| destruct (theme_name =? "Feedback")]];
      apply Hvo; discriminate. }
  destruct Hstep as (verb & obj & Hverb & Hobj & ->). clear Hvo.
  choose adj Hadj.
  match goal with
  | |- context [bind Random.random ?k ?g0] =>
      destruct (bind_random k g0) as (u & ->)
  end.
  destruct (u <? 0.6)%float.
  - choose ctx Hctx.
    destruct (choice_returns (templates subj verb obj adj ctx)
                (tl (tl (tl (tl (tl (tl g))))))) as (s & Hs & E);
      [discriminate|].
    exists subj, verb, obj, adj, ctx, s. eexists.
    unfold theme_objects in Hobj. repeat split; eauto.
  - rewrite bind_ret.
    destruct (choice_returns (templates subj verb obj adj "")
                (tl (tl (tl (tl (tl g)))))) as (s & Hs & E);
      [discriminate|].
    exists subj, verb, obj, adj, "", s. eexists.
    unfold theme_objects in Hobj. repeat split; eauto.
Qed.

(** Every template shape spells out the object phrase. *)
Lemma templates_contain_object (subj verb obj adj ctx sentence : string) :
  In sentence (templates subj verb obj adj ctx) ->
  PyStr.Substring obj sentence.
Proof.
  unfold templates. intros [<- | [<- | [<- | [<- | [<- | []]]]]].
  - exists (subj ++ " " ++ verb ++ " "), (". It was " ++ adj ++ " " ++ ctx ++ ".").
    now rewrite !string_app_assoc.
  - unfold PyStr.strip.
    change (PyStr.lstrip ("Overall, " ++ ?x)) with ("Overall, " ++ x).
    destruct (rstrip_keeps_prefix
                (("Overall, " ++ PyStr.lower subj ++ " " ++ verb ++ " ") ++ obj ++ " ")
                "a" ("nd found it " ++ adj ++ ". " ++ ctx) eq_refl) as [r' E].
    rewrite !string_app_assoc in E. cbn [append] in E |- *.
    rewrite E.
    exists ("Overall, " ++ PyStr.lower subj ++ " " ++ verb ++ " "),
           (String " " (String "a" r')).
    rewrite !string_app_assoc. reflexivity.
  - exists (subj ++ " felt that "), (" was " ++ adj ++ ". " ++ ctx).
    now rewrite !string_app_assoc.
  - exists "In my opinion, ".
    eexists. reflexivity.
  - exists (subj ++ " would say the "), (" was " ++ adj ++ ". " ++ ctx ++ ".").
    now rewrite !string_app_assoc.
Qed.

Lemma comprehension_returns {A B} (body : A -> M B) (l : list A) :
  (forall a g, exists b g', body a g = (Returned b, g')) ->
  forall g, exists bs g',
    comprehension body l g = (Returned bs, g') /\ length bs = length l.
Proof.
  intros Hbody. induction l as [| a l IH]; intros g.
  - exists [], g. split; reflexivity.
  - destruct (Hbody a g) as (b & g1 & Eb).
    destruct (IH g1) as (bs & g2 & Ebs & Hlen).
    exists (b :: bs), g2. split.
    + cbn [comprehension]. rewrite (bind_returned _ _ _ _ _ Eb).
      rewrite (bind_returned _ _ _ _ _ Ebs). reflexivity.
    + cbn [length]. now rewrite Hlen.
Qed.

Lemma range_length (n : Z) : length (range n) = Z.to_nat n.
Proof. unfold range. now rewrite length_map, length_seq. Qed.

(** The generation step returns one review per element of the range. *)
Lemma reviews_returns (theme : string) (count : Z) (g : rng) :
  exists rs g', reviews theme count g = (Returned rs, g')
                /\ length rs = Z.to_nat count.
Proof.
  unfold reviews.
  destruct (comprehension_returns (fun _ : Z => generate_fluent_review theme)
              (range count)) with (g := g) as (rs & g' & E & Hlen).
  - intros _ g0.
    destruct (generate_fluent_review_returns theme g0)
      as (_ & _ & _ & _ & _ & s & g1 & E & _).
    now exists s, g1.
  - exists rs, g'. split; [exact E|]. now rewrite Hlen, range_length.
Qed.

(** C2: for a positive count and any theme, the generation action returns
    exactly [count] review strings, and the scored batch built from them has
    exactly [count] rows, one per review and in the same order. *)
Theorem generation_yields_count_reviews
    (polarity_scores : string -> scores)
    (theme : string) (count : Z) (g : rng) :
  (0 < count)%Z ->
  exists rs g' r,
    reviews theme count g = (Returned rs, g') /\
    Z.of_nat (length rs) = count /\
    analysis polarity_scores rs = Returned r /\
    Z.of_nat (total r) = count /\
    map review (table r) = rs.
Proof.
  intros Hc. destruct (reviews_returns theme count g) as (rs & g' & E & Hlen).
  assert (Hrs : rs <> []) by (destruct rs; [cbn in Hlen; lia | discriminate]).
  exists rs, g'. eexists. split; [exact E|].
  split; [lia|]. split; [exact (analysis_nonempty _ _ Hrs)|].
  cbn [total table]. split.
  - rewrite labelled_rows_length. lia.
  - unfold labelled_rows. rewrite map_map.
    rewrite <- (map_id rs) at 2. apply map_ext. intros x.
    now destruct (analyze_sentiment polarity_scores x).
Qed.

Example generation_yields_count_reviews_witness :
  (0 < 5)%Z /\
  exists rs g' r,
    reviews "Service" 5 [1; 2; 3; 4; 5; 6; 7; 8; 9]%N = (Returned rs, g') /\
    Z.of_nat (length rs) = 5%Z /\
    analysis (fun _ => {| compound := 0.5%float |}) rs = Returned r /\
    Z.of_nat (total r) = 5%Z /\
    map review (table r) = rs.
Proof.
  split; [lia|].
  apply (generation_yields_count_reviews
           (fun _ => {| compound := 0.5%float |}) "Service" 5
           [1; 2; 3; 4; 5; 6; 7; 8; 9]%N).
  lia.
Defined.

Lemma bind_lift {A B} (o : outcome A) (k : A -> M B) (g : rng) :
  bind (lift o) k g
  = match o with
    | Returned a => k a g
    | Raised e => (Raised e, g)
    end.
Proof. unfold bind, lift. destruct o; reflexivity. Qed.

(** A click on Generate makes the script run [generate_and_score] with the
    selected theme and the count the slider yields. *)
Lemma script_generate (polarity_scores : string -> scores)
    (w : widgets) (state : session_state) (n : Z) (g : rng) :
  generate_clicked w = true ->
  num_reviews w g = (Returned n, g) ->
  script polarity_scores w state g
  = generate_and_score polarity_scores (St.selectbox themes (theme_index w)) n g.
Proof.
  intros Hgen E. unfold script, generate_and_score.
  rewrite (bind_returned _ _ _ _ _ E). rewrite Hgen.
  rewrite bind_bind. apply bind_ext. intros rs g1. rewrite bind_ret.
  reflexivity.
Qed.



(** C8: a theme outside the four recognized ones does not fail: the
    generator behaves exactly as for "Reviews", and the sentence it returns
    is a template filled with an object of the Reviews pool. *)
Theorem unrecognized_theme_falls_back (theme : string) (g : rng) :
  ~ In theme ["Weather"; "Service"; "Feedback"; "Reviews"] ->
  generate_fluent_review theme g = generate_fluent_review "Reviews" g /\
  exists subj verb obj adj context sentence g',
    generate_fluent_review theme g = (Returned sentence, g') /\
    In obj objects_reviews /\
    In sentence (templates subj verb obj adj context) /\
    PyStr.Substring obj sentence.
Proof.
  intros Hth.
  assert (Hw : (theme =? "Weather") = false)
    by (apply String.eqb_neq; intros ->; apply Hth; simpl; auto).
  assert (Hs : (theme =? "Service") = false)
    by (apply String.eqb_neq; intros ->; apply Hth; simpl; auto).
  assert (Hf : (theme =? "Feedback") = false)
    by (apply String.eqb_neq; intros ->; apply Hth; simpl; auto).
  split.
  - unfold generate_fluent_review. rewrite Hw, Hs, Hf. reflexivity.
  - destruct (generate_fluent_review_returns theme g)
      as (subj & verb & obj & adj & ctx & s & g' & E & _ & _ & Hobj & _ & _ & Hs').
    unfold theme_objects in Hobj. rewrite Hw, Hs, Hf in Hobj.
    exists subj, verb, obj, adj, ctx, s, g'. repeat split; try assumption.
    eapply templates_contain_object; eassumption.
Qed.

Example unrecognized_theme_falls_back_witness :
  ~ In "Sports" ["Weather"; "Service"; "Feedback"; "Reviews"] /\
  generate_fluent_review "Sports" [3; 0; 2; 0; 5404319552844596; 2]%N
  = generate_fluent_review "Reviews" [3; 0; 2; 0; 5404319552844596; 2]%N.
Proof.
  assert (H : ~ In "Sports" ["Weather"; "Service"; "Feedback"; "Reviews"]).
  { simpl. intros [H | [H | [H | [H | []]]]]; discriminate H. }
  split; [exact H|].
  exact (proj1 (unrecognized_theme_falls_back "Sports"
                  [3; 0; 2; 0; 5404319552844596; 2]%N H)).
Defined.

(** C9: for each of the four recognized themes, every sentence the
    generator returns contains, as a substring, an object phrase of that
    theme's own pool. *)
Theorem sentence_contains_theme_object (theme : string) (g : rng) :
  In theme themes ->
  exists sentence g' obj,
    generate_fluent_review theme g = (Returned sentence, g') /\
    PyStr.Substring obj sentence /\
    (theme = "Weather" -> In obj objects_weather) /\
    (theme = "Service" -> In obj objects_service) /\
    (theme = "Feedback" -> In obj objects_feedback) /\
    (theme = "Reviews" -> In obj objects_reviews).
Proof.
  intros Hth.
  destruct (generate_fluent_review_returns theme g)
    as (subj & verb & obj & adj & ctx & s & g' & E & _ & _ & Hobj & _ & _ & Hs).
  exists s, g', obj. split; [exact E|].
  split; [eapply templates_contain_object; eassumption|].
  repeat split; intros ->; exact Hobj.
Qed.

Example sentence_contains_theme_object_witness :
  In "Weather" themes /\
  exists sentence g' obj,
    generate_fluent_review "Weather" [1; 7; 3; 2; 11; 4; 1]%N
      = (Returned sentence, g') /\
    PyStr.Substring obj sentence /\
    ("Weather" = "Weather" -> In obj objects_weather) /\
    ("Weather" = "Service" -> In obj objects_service) /\
    ("Weather" = "Feedback" -> In obj objects_feedback) /\
    ("Weather" = "Reviews" -> In obj objects_reviews).
Proof.
  assert (H : In "Weather" themes) by (simpl; auto).
  split; [exact H|].
  exact (sentence_contains_theme_object "Weather" [1; 7; 3; 2; 11; 4; 1]%N H).
Defined.

(** ** The omitted context clause *)

Lemma endswith_app (a b : string) : PyStr.endswith (a ++ b) b = true.
Proof.
  induction a as [| c a IH].
  - destruct b; cbn; rewrite ?String.eqb_refl, ?Ascii.eqb_refl; reflexivity.
  - cbn [append PyStr.endswith]. rewrite IH. apply orb_true_r.
Qed.

(** With the context clause omitted, only the second template is cleaned
    up: the first and the last end in a space before the period, the third
    in a dangling space. *)
Lemma templates_without_context (subj verb obj adj : string) :
  exists t0 t1 t2 t3 t4,
    templates subj verb obj adj "" = [t0; t1; t2; t3; t4] /\
    PyStr.endswith t0 " ." = true /\
    PyStr.endswith t2 " " = true /\
    PyStr.endswith t4 ". ." = true.
Proof.
  unfold templates. do 5 eexists. split; [reflexivity|].
  repeat split.
  - replace (subj ++ " " ++ verb ++ " " ++ obj ++ ". It was " ++ adj ++ " " ++ "" ++ ".")
      with ((subj ++ " " ++ verb ++ " " ++ obj ++ ". It was " ++ adj) ++ " .")
      by (now rewrite !string_app_assoc).
    apply endswith_app.
  - replace (subj ++ " felt that " ++ obj ++ " was " ++ adj ++ ". " ++ "")
      with ((subj ++ " felt that " ++ obj ++ " was " ++ adj ++ ".") ++ " ")
      by (now rewrite !string_app_assoc).
    apply endswith_app.
  - replace (subj ++ " would say the " ++ obj ++ " was " ++ adj ++ ". " ++ "" ++ ".")
      with ((subj ++ " would say the " ++ obj ++ " was " ++ adj) ++ ". .")
      by (now rewrite !string_app_assoc).
    apply endswith_app.
Qed.

(** C3, what the code does: when [random.random()] is not below 0.6 the
    context is the empty string, and the sentence keeps the blank that was
    meant to precede it.  Three of the five templates then end in a space
    before the period or in a dangling space; only the second one is
    stripped. *)
Theorem omitted_context_keeps_stray_space :
  generate_fluent_review "Weather" [0; 0; 0; 0; 5404319552844595; 0]%N
    = (Returned "I loved the sunny day. It was amazing .", []) /\
  generate_fluent_review "Weather" [0; 0; 0; 0; 5404319552844595; 1]%N
    = (Returned "Overall, i loved the sunny day and found it amazing.", []) /\
  generate_fluent_review "Weather" [0; 0; 0; 0; 5404319552844595; 2]%N
    = (Returned "I felt that the sunny day was amazing. ", []) /\
  generate_fluent_review "Weather" [0; 0; 0; 0; 5404319552844595; 3]%N
    = (Returned "In my opinion, the sunny day was amazing . I loved it thoroughly.", []) /\
  generate_fluent_review "Weather" [0; 0; 0; 0; 5404319552844595; 4]%N
    = (Returned "I would say the the sunny day was amazing. .", []) /\
  PyStr.endswith "I loved the sunny day. It was amazing ." " ." = true /\
  PyStr.endswith "I felt that the sunny day was amazing. " " " = true /\
  PyStr.endswith "I would say the the sunny day was amazing. ." ". ." = true.
Proof. repeat split; vm_compute; reflexivity. Qed.

(** ** Runs of the script *)

(** The slider always yields a count, within its bounds when its default
    is, and leaves the random source alone. *)
Lemma slider_returns (lo hi v : Z) (ui : option Z) (g : rng) :
  (lo <= v <= hi)%Z ->
  exists n, St.slider lo hi v ui g = (Returned n, g) /\ (lo <= n <= hi)%Z.
Proof.
  intros Hv. unfold St.slider. destruct ui as [u |].
  - destruct ((lo <=? u) && (u <=? hi))%Z eqn:E.
    + exists u. split; [reflexivity | lia].
    + exists v. split; [reflexivity | exact Hv].
  - exists v. split; [reflexivity | exact Hv].
Qed.

(** C10: at the program's interface the requested count is always between
    5 and 20: whatever the browser reports, the slider yields an integer [n]
    with [5 <= n <= 20], and a click on Generate runs the generation step
    with that [n], never with a zero or negative count, and stores and
    scores exactly [n] reviews. *)
Theorem review_count_within_slider_bounds
    (polarity_scores : string -> scores)
    (w : widgets) (state : session_state) (g : rng) :
  exists n,
    num_reviews w g = (Returned n, g) /\
    (5 <= n <= 20)%Z /\
    (generate_clicked w = true ->
     exists rs r g',
       reviews (St.selectbox themes (theme_index w)) n g = (Returned rs, g') /\
       Z.of_nat (length rs) = n /\
       script polarity_scores w state g = (Returned (Some rs, Some r), g') /\
       Z.of_nat (total r) = n).
Proof.
  destruct (slider_returns 5 20 5 (slider_value w) g ltac:(lia))
    as (n & E & Hn); fold (num_reviews w) in E.
  exists n. split; [exact E|]. split; [exact Hn|]. intros Hgen.
  destruct (reviews_returns (St.selectbox themes (theme_index w)) n g)
    as (rs & g' & Er & Hlen).
  assert (Hrs : rs <> []) by (destruct rs; [cbn in Hlen; lia | discriminate]).
  exists rs. eexists. exists g'. split; [exact Er|]. split; [lia|].
  unfold script. rewrite (bind_returned _ _ _ _ _ E). rewrite Hgen.
  rewrite bind_bind. rewrite (bind_returned _ _ _ _ _ Er). rewrite bind_ret.
  rewrite bind_lift. rewrite (analysis_nonempty _ _ Hrs).
  split; [reflexivity|]. cbn [total]. rewrite labelled_rows_length. lia.
Qed.

(* ================================================================== *)
(** * Further properties of the generator *)
(* ================================================================== *)

(** A choice reads the position [pick_index] of its sequence. *)
Lemma choice_index {A} (l : list A) (g : rng) :
  l <> [] ->
  exists x,
    nth_error l (pick_index (length l) g) = Some x /\ In x l /\
    forall B (k : A -> M B), bind (Random.choice l) k g = k x (tl g).
Proof.
  intros Hl. destruct l as [| a l]; [contradiction|].
  assert (Hi : pick_index (length (a :: l)) g < length (a :: l)).
  { unfold pick_index.
    assert (hd 0%N g mod N.of_nat (length (a :: l))
            < N.of_nat (length (a :: l)))%N
      by (apply N.mod_lt; cbn [length]; lia).
    lia. }
  destruct (nth_error (a :: l) (pick_index (length (a :: l)) g)) as [x |] eqn:E;
    [| apply nth_error_None in E; lia].
  exists x. split; [reflexivity|]. split; [eapply nth_error_In; exact E|].
  intros B k. unfold Random.choice, Random.randbelow.
  rewrite !bind_bind.
  assert (Hd : Random.draw g = (Returned (hd 0%N g), tl g))
    by (destruct g; reflexivity).
  rewrite (bind_returned _ _ _ _ _ Hd). rewrite bind_ret.
  fold (pick_index (length (a :: l)) g). rewrite E. reflexivity.
Qed.

Lemma random_value (g : rng) :
  exists u, forall B (k : float -> M B),
    bind Random.random k g = k u (tl g).
Proof.
  unfold Random.random.
  destruct g as [| n g]; eexists; intros B k; rewrite bind_bind; reflexivity.
Qed.

Lemma theme_objects_length (theme : string) : length (theme_objects theme) = 5.
Proof.
  unfold theme_objects.
  destruct (theme =? "Weather"); [reflexivity|].
  destruct (theme =? "Service"); [reflexivity|].
  destruct (theme =? "Feedback"); reflexivity.
Qed.

(** The four branches of the generator differ in the object pool only. *)
Lemma generate_fluent_review_from (theme : string) (g : rng) :
  generate_fluent_review theme g = generate_from (theme_objects theme) g.
Proof.
  unfold generate_fluent_review, generate_from, theme_objects.
  apply bind_ext. intros subj g1.
  destruct (theme =? "Weather");
    [| destruct (theme =? "Service"); [| destruct (theme =? "Feedback")]];
    rewrite bind_bind; apply bind_ext; intros verb g2;
    rewrite bind_bind; apply bind_ext; intros obj g3;
    rewrite bind_ret; reflexivity.
Qed.

Lemma templates_length (subj verb obj adj ctx : string) :
  length (templates subj verb obj adj ctx) = 5.
Proof. reflexivity. Qed.

(** Two pools of the same size, read with the same random source, give
    the same sentence up to the object. *)
Lemma generate_from_parallel (p1 p2 : list string) (g : rng) :
  length p1 = length p2 -> p1 <> [] ->
  exists subj verb adj ctx i j o1 o2 s1 s2 g',
    nth_error p1 j = Some o1 /\ nth_error p2 j = Some o2 /\
    nth_error (templates subj verb o1 adj ctx) i = Some s1 /\
    nth_error (templates subj verb o2 adj ctx) i = Some s2 /\
    generate_from p1 g = (Returned s1, g') /\
    generate_from p2 g = (Returned s2, g').
Proof.
  intros Hlen Hp1.
  assert (Hp2 : p2 <> []) by (destruct p1, p2; cbn in *; congruence).
  unfold generate_from.
  destruct (choice_index subjects g ltac:(discriminate)) as (subj & _ & _ & Hs).
  destruct (choice_index verbs (tl g) ltac:(discriminate)) as (verb & _ & _ & Hv).
  destruct (choice_index p1 (tl (tl g)) Hp1) as (o1 & Ho1 & _ & Hc1).
  destruct (choice_index p2 (tl (tl g)) Hp2) as (o2 & Ho2 & _ & Hc2).
  destruct (choice_index adjectives (tl (tl (tl g))) ltac:(discriminate))
    as (adj & _ & _ & Ha).
  destruct (random_value (tl (tl (tl (tl g))))) as (u & Hu).
  rewrite !Hs, !Hv, Hc1, Hc2, !Ha, !Hu.
  rewrite <- Hlen in Ho2.
  destruct (u <? 0.6)%float.
  - destruct (choice_index contexts (tl (tl (tl (tl (tl g))))) ltac:(discriminate))
      as (ctx & _ & _ & Hx).
    rewrite !Hx.
    set (g6 := tl (tl (tl (tl (tl (tl g)))))).
    destruct (choice_index (templates subj verb o1 adj ctx) g6 ltac:(discriminate))
      as (s1 & Hs1 & _ & Ht1).
    destruct (choice_index (templates subj verb o2 adj ctx) g6 ltac:(discriminate))
      as (s2 & Hs2 & _ & Ht2).
    rewrite templates_length in Hs1, Hs2.
    exists subj, verb, adj, ctx, (pick_index 5 g6),
      (pick_index (length p1) (tl (tl g))), o1, o2, s1, s2, (tl g6).
    repeat split; try assumption.
    + specialize (Ht1 _ ret). unfold bind, ret in Ht1.
      destruct (Random.choice _ g6) as [[a | e] g']; congruence.
    + specialize (Ht2 _ ret). unfold bind, ret in Ht2.
      destruct (Random.choice _ g6) as [[a | e] g']; congruence.
  - rewrite !bind_ret.
    set (g5 := tl (tl (tl (tl (tl g))))).
    destruct (choice_index (templates subj verb o1 adj "") g5 ltac:(discriminate))
      as (s1 & Hs1 & _ & Ht1).
    destruct (choice_index (templates subj verb o2 adj "") g5 ltac:(discriminate))
      as (s2 & Hs2 & _ & Ht2).
    rewrite templates_length in Hs1, Hs2.
    exists subj, verb, adj, "", (pick_index 5 g5),
      (pick_index (length p1) (tl (tl g))), o1, o2, s1, s2, (tl g5).
    repeat split; try assumption.
    + specialize (Ht1 _ ret). unfold bind, ret in Ht1.
      destruct (Random.choice _ g5) as [[a | e] g']; congruence.
    + specialize (Ht2 _ ret). unfold bind, ret in Ht2.
      destruct (Random.choice _ g5) as [[a | e] g']; congruence.
Qed.

(** X1: the theme changes nothing but the object phrase.  With the same
    random source, any two themes give the same template shape filled with
    the same subject, verb, adjective and context, and with the objects that
    stand at the same position of the two themes' pools; both calls leave
    the random source in the same state. *)
Theorem theme_changes_object_only (theme1 theme2 : string) (g : rng) :
  exists subj verb adj context i j obj1 obj2 s1 s2 g',
    nth_error (theme_objects theme1) j = Some obj1 /\
    nth_error (theme_objects theme2) j = Some obj2 /\
    nth_error (templates subj verb obj1 adj context) i = Some s1 /\
    nth_error (templates subj verb obj2 adj context) i = Some s2 /\
    generate_fluent_review theme1 g = (Returned s1, g') /\
    generate_fluent_review theme2 g = (Returned s2, g').
Proof.
  rewrite !generate_fluent_review_from.
  apply generate_from_parallel.
  - now rewrite !theme_objects_length.
  - intros E. pose proof (theme_objects_length theme1) as H.
    rewrite E in H. discriminate H.
Qed.

(** Every template shape spells out the adjective. *)
Lemma templates_contain_adjective (subj verb obj adj ctx sentence : string) :
  In sentence (templates subj verb obj adj ctx) ->
  PyStr.Substring adj sentence.
Proof.
  unfold templates. intros [<- | [<- | [<- | [<- | [<- | []]]]]].
  - exists (subj ++ " " ++ verb ++ " " ++ obj ++ ". It was "), (" " ++ ctx ++ ".").
    now rewrite !string_app_assoc.
  - unfold PyStr.strip.
    change (PyStr.lstrip ("Overall, " ++ ?x)) with ("Overall, " ++ x).
    destruct (rstrip_keeps_prefix
                ("Overall, " ++ PyStr.lower subj ++ " " ++ verb ++ " " ++ obj
                 ++ " and found it " ++ adj)
                "." (" " ++ ctx) eq_refl) as [r' E].
    rewrite !string_app_assoc in E. cbn [append] in E |- *.
    rewrite E.
    exists ("Overall, " ++ PyStr.lower subj ++ " " ++ verb ++ " " ++ obj
            ++ " and found it "), (String "." r').
    rewrite !string_app_assoc. reflexivity.
  - exists (subj ++ " felt that " ++ obj ++ " was "), (". " ++ ctx).
    now rewrite !string_app_assoc.
  - exists ("In my opinion, " ++ obj ++ " was "),
      (" " ++ ctx ++ ". " ++ subj ++ " " ++ verb ++ " it thoroughly.").
    now rewrite !string_app_assoc.
  - exists (subj ++ " would say the " ++ obj ++ " was "), (". " ++ ctx ++ ".").
    now rewrite !string_app_assoc.
Qed.

Lemma substring_nonempty (sub s : string) :
  PyStr.Substring sub s -> sub <> "" -> s <> "".
Proof.
  intros (pre & post & ->) Hsub E.
  destruct pre; [destruct sub; [congruence | discriminate E] | discriminate E].
Qed.

Lemma adjectives_nonempty (adj : string) : In adj adjectives -> adj <> "".
Proof.
  unfold adjectives. cbn [In].
  intros H; repeat (destruct H as [<- | H]; [discriminate|]); contradiction.
Qed.

(** X2: whatever the theme and the random source, the generator returns a
    sentence that is not empty and that contains one of the ten adjectives
    of the pool. *)
Theorem sentence_nonempty_with_adjective (theme : string) (g : rng) :
  exists sentence g' adj,
    generate_fluent_review theme g = (Returned sentence, g') /\
    sentence <> "" /\
    In adj adjectives /\
    PyStr.Substring adj sentence.
Proof.
  destruct (generate_fluent_review_returns theme g)
    as (subj & verb & obj & adj & ctx & s & g' & E & _ & _ & _ & Hadj & _ & Hs).
  pose proof (templates_contain_adjective _ _ _ _ _ _ Hs) as Hsub.
  exists s, g', adj. repeat split; try assumption.
  exact (substring_nonempty _ _ Hsub (adjectives_nonempty _ Hadj)).
Qed.

(** Every object phrase but one begins with the article. *)
Lemma object_begins_with_the (obj : string) :
  In obj all_objects -> obj <> "stormy conditions" ->
  exists rest, obj = "the " ++ rest.
Proof.
  unfold all_objects, objects_weather, objects_service, objects_feedback,
    objects_reviews. cbn [app In].
  intros H Hne.
  repeat (destruct H as [<- | H];
          [first [eexists; reflexivity | exfalso; apply Hne; reflexivity] |]).
  contradiction.
Qed.

(** X3: the last template writes "the" in front of the object, and every
    object phrase except "stormy conditions" brings its own article: the
    sentence of that shape then reads "the the ...". *)
Theorem last_template_doubles_article (subj verb obj adj context : string) :
  In obj all_objects -> obj <> "stormy conditions" ->
  exists sentence,
    nth_error (templates subj verb obj adj context) 4 = Some sentence /\
    PyStr.Substring "the the " sentence.
Proof.
  intros Hin Hne. destruct (object_begins_with_the obj Hin Hne) as [rest ->].
  eexists. split; [reflexivity|].
  exists (subj ++ " would say "), (rest ++ " was " ++ adj ++ ". " ++ context ++ ".").
  rewrite !string_app_assoc. reflexivity.
Qed.

Example last_template_doubles_article_witness :
  In "the staff" all_objects /\ "the staff" <> "stormy conditions" /\
  exists sentence,
    nth_error (templates "We" "noticed" "the staff" "okay" "") 4 = Some sentence /\
    PyStr.Substring "the the " sentence.
Proof.
  assert (H1 : In "the staff" all_objects) by (vm_compute; tauto).
  assert (H2 : "the staff" <> "stormy conditions") by discriminate.
  split; [exact H1|]. split; [exact H2|].
  exact (last_template_doubles_article "We" "noticed" "the staff" "okay" "" H1 H2).
Defined.

(** ** Batches of reviews *)

Lemma comprehension_app {A B} (body : A -> M B) (l1 l2 : list A)
    (g g1 g2 : rng) (bs1 bs2 : list B) :
  comprehension body l1 g = (Returned bs1, g1) ->
  comprehension body l2 g1 = (Returned bs2, g2) ->
  comprehension body (l1 ++ l2)%list g = (Returned (bs1 ++ bs2)%list, g2).
Proof.
  revert g bs1. induction l1 as [| a l1 IH]; intros g bs1 E1 E2.
  - cbn in E1. unfold ret in E1. injection E1 as <- <-. exact E2.
  - cbn [app comprehension] in E1 |- *. unfold bind in E1 |- *.
    destruct (body a g) as [[b | e] g'] eqn:Eb; [| discriminate E1].
    destruct (comprehension body l1 g') as [[bs | e] g''] eqn:Ebs;
      [| discriminate E1].
    unfold ret in E1. injection E1 as <- <-.
    rewrite (IH g' bs Ebs E2). reflexivity.
Qed.

(** A body that ignores its argument only sees how long the list is. *)
Lemma comprehension_const {A B} (m : M B) (l l' : list A) (g : rng) :
  length l = length l' ->
  comprehension (fun _ => m) l g = comprehension (fun _ => m) l' g.
Proof.
  revert l' g. induction l as [| a l IH]; intros [| a' l'] g H;
    try discriminate H; [reflexivity|].
  cbn [comprehension]. apply bind_ext. intros b g1.
  injection H as H. unfold bind. rewrite (IH l' g1 H). reflexivity.
Qed.

(** X4: a batch is generated review by review from one random source.
    Asking for [n + m] reviews gives the [n] reviews a first request would
    give, followed by the [m] reviews a second request gives when it starts
    from the random state the first one left. *)
Theorem reviews_of_sum (theme : string) (n m : Z) (g : rng) :
  (0 <= n)%Z -> (0 <= m)%Z ->
  exists rs1 g1 rs2 g2,
    reviews theme n g = (Returned rs1, g1) /\
    reviews theme m g1 = (Returned rs2, g2) /\
    reviews theme (n + m) g = (Returned (rs1 ++ rs2)%list, g2).
Proof.
  intros Hn Hm.
  destruct (reviews_returns theme n g) as (rs1 & g1 & E1 & _).
  destruct (reviews_returns theme m g1) as (rs2 & g2 & E2 & _).
  exists rs1, g1, rs2, g2. split; [exact E1|]. split; [exact E2|].
  unfold reviews in *.
  rewrite (comprehension_const _ (range (n + m)) (range n ++ range m)%list).
  - exact (comprehension_app _ _ _ _ _ _ _ _ E1 E2).
  - rewrite length_app, !range_length. lia.
Qed.

Example reviews_of_sum_witness :
  (0 <= 2)%Z /\ (0 <= 3)%Z /\
  exists rs1 g1 rs2 g2,
    reviews "Feedback" 2 [5; 4; 3; 2; 1]%N = (Returned rs1, g1) /\
    reviews "Feedback" 3 g1 = (Returned rs2, g2) /\
    reviews "Feedback" (2 + 3) [5; 4; 3; 2; 1]%N
      = (Returned (rs1 ++ rs2)%list, g2).
Proof.
  split; [lia|]. split; [lia|].
  apply (reviews_of_sum "Feedback" 2 3 [5; 4; 3; 2; 1]%N); lia.
Defined.

(* ================================================================== *)
(** * Further properties of the analysis *)
(* ================================================================== *)

Section MetricFacts.

Variable polarity_scores : string -> scores.

Lemma count_label_cons (label x : string) (df_generated : list string) :
  count_label label (labelled_rows polarity_scores (x :: df_generated))
  = (if fst (analyze_sentiment polarity_scores x) =? label then 1 else 0)
    + count_label label (labelled_rows polarity_scores df_generated).
Proof.
  unfold count_label, labelled_rows. cbn [map filter].
  destruct (analyze_sentiment polarity_scores x) as [l c]. cbn [sentiment fst].
  destruct (l =? label); reflexivity.
Qed.

End MetricFacts.

Lemma labelled_counts_by_threshold
    (polarity_scores : string -> scores) (df_generated : list string) :
  let score x := compound (polarity_scores x) in
  let df := labelled_rows polarity_scores df_generated in
  count_label "Positive" df
    = length (filter (fun x => 0.05 <=? score x)%float df_generated) /\
  count_label "Negative" df
    = length (filter (fun x => score x <=? -0.05)%float df_generated) /\
  count_label "Neutral" df
    = length (filter (fun x => negb (0.05 <=? score x)%float
                               && negb (score x <=? -0.05)%float)
                     df_generated).
Proof.
  cbv zeta.
  induction df_generated as [| x df (IHp & IHn & IHu)]; [now repeat split|].
  rewrite !count_label_cons, IHp, IHn, IHu. cbn [filter].
  destruct (analyze_sentiment_cases polarity_scores x)
    as [[Hp E] | [(Hp & Hn & E) | (Hp & Hn & E)]];
    cbv zeta in *; rewrite E; cbn [fst].
  - rewrite Hp, (thresholds_exclusive _ Hp). now repeat split.
  - rewrite Hp, Hn. now repeat split.
  - rewrite Hp, Hn. now repeat split.
Qed.

(** X5: for a batch that has rows, the three metrics count the reviews by
    where their compound score falls: Positive is the number of reviews
    scoring at least 0.05, Negative the number scoring at most -0.05,
    Neutral the number doing neither. *)
Theorem metrics_count_by_threshold
    (polarity_scores : string -> scores) (df_generated : list string) :
  df_generated <> [] ->
  let score x := compound (polarity_scores x) in
  exists r,
    analysis polarity_scores df_generated = Returned r /\
    pos r = length (filter (fun x => 0.05 <=? score x)%float df_generated) /\
    neg r = length (filter (fun x => score x <=? -0.05)%float df_generated) /\
    neu r = length (filter (fun x => negb (0.05 <=? score x)%float
                                     && negb (score x <=? -0.05)%float)
                           df_generated).
Proof.
  intros Hne. cbv zeta. eexists. split; [exact (analysis_nonempty _ _ Hne)|].
  cbn [pos neg neu].
  exact (labelled_counts_by_threshold polarity_scores df_generated).
Qed.

Example metrics_count_by_threshold_witness :
  ["It was fantastic"; "It was terrible"; "It was fantastic"] <> [] /\
  exists r,
    analysis (Lexicon.polarity_scores toy_lexicon (fun _ _ v => v)
                                      (fun _ => 0%float))
             ["It was fantastic"; "It was terrible"; "It was fantastic"]
    = Returned r /\
    pos r = 2 /\ neg r = 1 /\ neu r = 0.
Proof.
  assert (H : ["It was fantastic"; "It was terrible"; "It was fantastic"] <> [])
    by discriminate.
  split; [exact H|].
  destruct (metrics_count_by_threshold
              (Lexicon.polarity_scores toy_lexicon (fun _ _ v => v)
                                       (fun _ => 0%float))
              ["It was fantastic"; "It was terrible"; "It was fantastic"] H)
    as (r & E & Hp & Hn & Hu).
  exists r. split; [exact E|].
  split; [rewrite Hp | split; [rewrite Hn | rewrite Hu]];
    vm_compute; reflexivity.
Defined.

(** ** The chart frame *)

Lemma existsb_filter_neq (v x : string) (l : list string) :
  (v =? x) = false ->
  existsb (String.eqb v) (filter (fun y => negb (y =? x)) l)
  = existsb (String.eqb v) l.
Proof.
  intros Hvx. induction l as [| y l IH]; [reflexivity|].
  cbn [filter existsb]. destruct (y =? x) eqn:Eyx; cbn [negb existsb].
  - apply String.eqb_eq in Eyx. subst y. now rewrite Hvx, IH.
  - now rewrite IH.
Qed.

Lemma existsb_unique (v : string) (col : list string) :
  existsb (String.eqb v) (Pandas.unique col) = existsb (String.eqb v) col.
Proof.
  induction col as [| x col IH]; [reflexivity|].
  cbn [Pandas.unique existsb]. destruct (v =? x) eqn:E; [reflexivity|].
  cbn [orb]. now rewrite existsb_filter_neq, IH.
Qed.

(** A value has a row in [value_counts] exactly when it occurs. *)
Lemma count_in_positive (v : string) (col : list string) :
  (0 <? Pandas.count_in col v)%nat = existsb (String.eqb v) (Pandas.unique col).
Proof.
  rewrite existsb_unique. unfold Pandas.count_in.
  induction col as [| x col IH]; [reflexivity|].
  cbn [filter existsb]. rewrite (String.eqb_sym v x).
  destruct (x =? v); [reflexivity | exact IH].
Qed.

Lemma count_in_sentiment (v : string) (df : list row) :
  Pandas.count_in (map sentiment df) v = count_label v df.
Proof.
  unfold Pandas.count_in, count_label.
  induction df as [| r df IH]; [reflexivity|].
  cbn [map filter]. destruct (sentiment r =? v); cbn [length]; now rewrite IH.
Qed.

Ltac pick_disjunct := repeat first [left; reflexivity | right].

(** The distinct labels of a scored column, in order of first appearance:
    one of the sixteen duplicate-free lists over the three labels. *)
Lemma unique_labels (col : list string) :
  Forall (fun v => In v ["Positive"; "Neutral"; "Negative"]) col ->
  In (Pandas.unique col)
     [ [];
       ["Positive"]; ["Neutral"]; ["Negative"];
       ["Positive"; "Neutral"]; ["Neutral"; "Positive"];
       ["Positive"; "Negative"]; ["Negative"; "Positive"];
       ["Neutral"; "Negative"]; ["Negative"; "Neutral"];
       ["Positive"; "Neutral"; "Negative"]; ["Positive"; "Negative"; "Neutral"];
       ["Neutral"; "Positive"; "Negative"]; ["Neutral"; "Negative"; "Positive"];
       ["Negative"; "Positive"; "Neutral"]; ["Negative"; "Neutral"; "Positive"] ].
Proof.
  induction 1 as [| x col Hx _ IH]; [now left|].
  cbn [Pandas.unique]. cbn [In] in Hx, IH.
  repeat (destruct IH as [<- | IH]);
    try contradiction;
    destruct Hx as [<- | [<- | [<- | []]]];
    vm_compute; pick_disjunct.
Qed.

(** The chart frame in closed form. *)
Lemma sentiment_counts_filter
    (polarity_scores : string -> scores) (df_generated : list string) :
  let df := labelled_rows polarity_scores df_generated in
  sentiment_counts df
  = filter (fun r => 0 <? snd r)%nat
           (map (fun label => (Some label, count_label label df))
                sentiment_order).
Proof.
  cbv zeta. set (df := labelled_rows polarity_scores df_generated).
  assert (Hlab : Forall (fun v => In v ["Positive"; "Neutral"; "Negative"])
                        (map sentiment df)).
  { apply Forall_forall. intros v Hv. apply in_map_iff in Hv.
    destruct Hv as (r & <- & Hr).
    pose proof (labelled_rows_labels polarity_scores df_generated) as H.
    rewrite Forall_forall in H. exact (H r Hr). }
  pose proof (count_in_positive "Positive" (map sentiment df)) as FP.
  pose proof (count_in_positive "Neutral" (map sentiment df)) as FU.
  pose proof (count_in_positive "Negative" (map sentiment df)) as FN.
  unfold sentiment_order. cbn [map].
  rewrite <- !count_in_sentiment.
  unfold sentiment_counts, Pandas.value_counts.
  pose proof (unique_labels _ Hlab) as Hu. cbn [In] in Hu.
  set (cP := Pandas.count_in (map sentiment df) "Positive") in *.
  set (cU := Pandas.count_in (map sentiment df) "Neutral") in *.
  set (cN := Pandas.count_in (map sentiment df) "Negative") in *.
  repeat (destruct Hu as [Hu | Hu]); try contradiction;
    rewrite <- Hu in *; cbn [map] in *;
    fold cP; fold cU; fold cN;
    clearbody cP cU cN;
    cbn [filter snd]; rewrite FP, FU, FN; clear FP FU FN;
    cbn [sort_by insert_by snd];
    repeat match goal with
           | |- context [(?a <=? ?b)%nat] =>
               is_var a; is_var b; destruct (a <=? b)%nat;
               cbn [sort_by insert_by snd]
           end;
    reflexivity.
Qed.

(** X6: for a batch that has rows, the frame handed to the bar chart has
    one row per label that occurs in the batch, in the order Positive,
    Neutral, Negative, each with the number of reviews carrying it; a label
    that no review carries has no row, and no row is left without a
    label. *)
Theorem sentiment_counts_rows
    (polarity_scores : string -> scores) (df_generated : list string) :
  df_generated <> [] ->
  exists df,
    score_rows polarity_scores df_generated = Returned df /\
    sentiment_counts df
    = filter (fun r => 0 <? snd r)%nat
             (map (fun label => (Some label, count_label label df))
                  sentiment_order).
Proof.
  intros Hne. eexists. split; [exact (score_rows_nonempty _ _ Hne)|].
  exact (sentiment_counts_filter polarity_scores df_generated).
Qed.

Example sentiment_counts_rows_witness :
  ["It was terrible"; "It was fantastic"; "It was terrible"] <> [] /\
  exists df,
    score_rows (Lexicon.polarity_scores toy_lexicon (fun _ _ v => v)
                                        (fun _ => 0%float))
               ["It was terrible"; "It was fantastic"; "It was terrible"]
    = Returned df /\
    sentiment_counts df = [(Some "Positive", 1); (Some "Negative", 2)].
Proof.
  assert (H : ["It was terrible"; "It was fantastic"; "It was terrible"] <> [])
    by discriminate.
  split; [exact H|].
  destruct (sentiment_counts_rows
              (Lexicon.polarity_scores toy_lexicon (fun _ _ v => v)
                                       (fun _ => 0%float))
              ["It was terrible"; "It was fantastic"; "It was terrible"] H)
    as (df & E & Hc).
  exists df. split; [exact E|]. rewrite Hc.
  vm_compute in E. injection E as <-. vm_compute. reflexivity.
Defined.

(** X7: for a batch that has rows, the bars of the chart add up to the
    Total Reviews metric. *)
Theorem chart_counts_sum_to_total
    (polarity_scores : string -> scores) (df_generated : list string) :
  df_generated <> [] ->
  exists df r,
    score_rows polarity_scores df_generated = Returned df /\
    analysis polarity_scores df_generated = Returned r /\
    list_sum (map snd (sentiment_counts df)) = total r.
Proof.
  intros Hne. do 2 eexists.
  split; [exact (score_rows_nonempty _ _ Hne)|].
  split; [exact (analysis_nonempty _ _ Hne)|].
  pose proof (sentiment_counts_filter polarity_scores df_generated) as E.
  cbv zeta in E. rewrite E. cbn [total].
  rewrite <- (count_label_partition _ (labelled_rows_labels polarity_scores df_generated)).
  unfold sentiment_order. cbn [map filter snd].
  destruct (count_label "Positive" _) as [| p], (count_label "Neutral" _) as [| u],
    (count_label "Negative" _) as [| n]; cbn [Nat.ltb Nat.leb filter map snd list_sum];
    cbn; lia.
Qed.

Example chart_counts_sum_to_total_witness :
  ["It was terrible"; "It was okay"] <> [] /\
  exists df r,
    score_rows (fun _ => {| compound := 0%float |})
               ["It was terrible"; "It was okay"] = Returned df /\
    analysis (fun _ => {| compound := 0%float |})
             ["It was terrible"; "It was okay"] = Returned r /\
    list_sum (map snd (sentiment_counts df)) = total r.
Proof.
  assert (H : ["It was terrible"; "It was okay"] <> []) by discriminate.
  split; [exact H|].
  exact (chart_counts_sum_to_total (fun _ => {| compound := 0%float |})
           ["It was terrible"; "It was okay"] H).
Defined.

(* ================================================================== *)
(** * Further properties of the script and its reruns *)
(* ================================================================== *)

Section RunFacts.

Variable polarity_scores : string -> scores.


(** What one run does: the slider yields a count between 5 and 20; then
    the run generates and scores a fresh batch, or it scores what the
    session holds. *)
Lemma script_cases (w : widgets) (state : session_state) (g : rng) :
  exists n, (5 <= n <= 20)%Z /\
    if generate_clicked w then
      exists rs r g',
        reviews (St.selectbox themes (theme_index w)) n g = (Returned rs, g') /\
        Z.of_nat (length rs) = n /\
        analysis polarity_scores rs = Returned r /\
        script polarity_scores w state g = (Returned (Some rs, Some r), g')
    else
      match (if refresh_clicked w then None else state) with
      | None => script polarity_scores w state g = (Returned (None, None), g)
      | Some df =>
          script polarity_scores w state g
          = (match analysis polarity_scores df with
             | Returned r => Returned (Some df, Some r)
             | Raised e => Raised e
             end, g)
      end.
Proof.
  unfold script.
  destruct (slider_returns 5 20 5 (slider_value w) g ltac:(lia))
    as (n & E & Hn); fold (num_reviews w) in E.
  exists n. split; [exact Hn|].
  rewrite (bind_returned _ _ _ _ _ E).
  destruct (generate_clicked w).
  - destruct (reviews_returns (St.selectbox themes (theme_index w)) n g)
      as (rs & g' & Er & Hlen).
    assert (Hrs : rs <> []) by (destruct rs; [cbn in Hlen; lia | discriminate]).
    exists rs. eexists. exists g'. split; [exact Er|]. split; [lia|].
    split; [exact (analysis_nonempty _ _ Hrs)|].
    rewrite bind_bind. rewrite (bind_returned _ _ _ _ _ Er). rewrite bind_ret.
    rewrite bind_lift. rewrite (analysis_nonempty _ _ Hrs). reflexivity.
  - rewrite bind_ret.
    destruct (if refresh_clicked w then None else state) as [df |];
      [| reflexivity].
    rewrite bind_lift. destruct (analysis polarity_scores df); reflexivity.
Qed.


End RunFacts.



(** X9: a click on either button makes the run forget the batch it found.
    After Refresh or Generate the new session state, the report and the
    random state are the same whatever the session held before; and a
    Refresh without Generate leaves no batch and shows no report. *)
Theorem click_discards_previous_batch
    (polarity_scores : string -> scores) (w : widgets)
    (state1 state2 : session_state) (g : rng) :
  refresh_clicked w = true \/ generate_clicked w = true ->
  script polarity_scores w state1 g = script polarity_scores w state2 g /\
  (generate_clicked w = false ->
   forall state' shown g',
     script polarity_scores w state1 g = (Returned (state', shown), g') ->
     state' = None /\ shown = None /\ g' = g).
Proof.
  intros Hclick. split.
  - unfold script. destruct (refresh_clicked w); [reflexivity|].
    destruct Hclick as [H | H]; [discriminate H|]. rewrite H. reflexivity.
  - intros Hgen state' shown g' E.
    destruct Hclick as [Href | H]; [| congruence].
    destruct (script_cases polarity_scores w state1 g) as (n & _ & H).
    rewrite Hgen, Href in H. rewrite H in E.
    injection E as <- <- <-. auto.
Qed.

Example click_discards_previous_batch_witness :
  (true = true \/ false = true) /\
  script (fun _ => {| compound := 0%float |})
         {| refresh_clicked := true; theme_index := 0;
            slider_value := None; generate_clicked := false |}
         (Some ["We loved the rain. It was okay ."]) [7]%N
  = script (fun _ => {| compound := 0%float |})
         {| refresh_clicked := true; theme_index := 0;
            slider_value := None; generate_clicked := false |}
         None [7]%N.
Proof.
  split; [left; reflexivity|].
  exact (proj1 (click_discards_previous_batch
                  (fun _ => {| compound := 0%float |})
                  {| refresh_clicked := true; theme_index := 0;
                     slider_value := None; generate_clicked := false |}
                  (Some ["We loved the rain. It was okay ."]) None [7]%N
                  (or_introl eq_refl))).
Defined.

(** X10: runs without a click keep the batch.  When the session holds no
    batch, or a batch that has rows, then however often the script reruns
    because the theme or the slider is changed, the session state stays what
    it was, every run shows the same report, that of the stored batch (none
    when there is no batch), and no random draw is consumed. *)
Theorem idle_runs_keep_batch
    (polarity_scores : string -> scores) (ws : list widgets)
    (state : session_state) (g : rng) :
  state <> Some [] ->
  Forall idle ws ->
  exists shown,
    runs polarity_scores ws state g
    = (Returned (state, repeat shown (length ws)), g) /\
    match state with
    | None => shown = None
    | Some df_generated =>
        exists r, analysis polarity_scores df_generated = Returned r /\
                  shown = Some r
    end.
Proof.
  intros Hne Hidle.
  assert (Hshown : exists shown,
            (forall w, idle w ->
               script polarity_scores w state g = (Returned (state, shown), g)) /\
            match state with
            | None => shown = None
            | Some df_generated =>
                exists r, analysis polarity_scores df_generated = Returned r /\
                          shown = Some r
            end).
  { destruct state as [df |].
    - assert (Hdf : df <> []) by (intros ->; now apply Hne).
      eexists. split; [| eexists; split; [exact (analysis_nonempty _ _ Hdf) | reflexivity]].
      intros w (Href & Hgen).
      destruct (script_cases polarity_scores w (Some df) g) as (n & _ & H).
      rewrite Hgen, Href in H. rewrite H.
      now rewrite (analysis_nonempty _ _ Hdf).
    - exists None. split; [| reflexivity].
      intros w (Href & Hgen).
      destruct (script_cases polarity_scores w None g) as (n & _ & H).
      rewrite Hgen, Href in H. exact H. }
  destruct Hshown as (shown & Hrun & Hs). exists shown. split; [| exact Hs].
  induction Hidle as [| w ws Hw _ IH]; [reflexivity|].
  cbn [runs length repeat].
  rewrite (bind_returned _ _ _ _ _ (Hrun w Hw)).
  rewrite (bind_returned _ _ _ _ _ IH). reflexivity.
Qed.

Example idle_runs_keep_batch_witness :
  Some ["We loved the rain. It was okay ."] <> Some [] /\
  Forall idle
    [ {| refresh_clicked := false; theme_index := 3;
         slider_value := Some 12%Z; generate_clicked := false |};
      {| refresh_clicked := false; theme_index := 0;
         slider_value := Some 0%Z; generate_clicked := false |} ] /\
  exists shown,
    runs (fun _ => {| compound := 0%float |})
      [ {| refresh_clicked := false; theme_index := 3;
           slider_value := Some 12%Z; generate_clicked := false |};
        {| refresh_clicked := false; theme_index := 0;
           slider_value := Some 0%Z; generate_clicked := false |} ]
      (Some ["We loved the rain. It was okay ."]) [9]%N
    = (Returned (Some ["We loved the rain. It was okay ."], [shown; shown]),
       [9]%N) /\
    exists r,
      analysis (fun _ => {| compound := 0%float |})
               ["We loved the rain. It was okay ."] = Returned r /\
      shown = Some r.
Proof.
  assert (H1 : Some ["We loved the rain. It was okay ."] <> Some (@nil string))
    by discriminate.
  assert (H2 : Forall idle
    [ {| refresh_clicked := false; theme_index := 3;
         slider_value := Some 12%Z; generate_clicked := false |};
      {| refresh_clicked := false; theme_index := 0;
         slider_value := Some 0%Z; generate_clicked := false |} ]).
  { repeat constructor. }
  split; [exact H1|]. split; [exact H2|].
  exact (idle_runs_keep_batch (fun _ => {| compound := 0%float |}) _
           (Some ["We loved the rain. It was okay ."]) [9]%N H1 H2).
Defined.

(** ** The selected theme in the stored batch *)

Lemma comprehension_forall {A B} (P : B -> Prop) (body : A -> M B)
    (l : list A) (g g' : rng) (bs : list B) :
  (forall a g0 b g1, body a g0 = (Returned b, g1) -> P b) ->
  comprehension body l g = (Returned bs, g') ->
  Forall P bs.
Proof.
  intros Hbody. revert g bs. induction l as [| a l IH]; intros g bs E.
  - cbn in E. unfold ret in E. injection E as <- <-. constructor.
  - cbn [comprehension] in E. unfold bind in E.
    destruct (body a g) as [[b | e] g1] eqn:Eb; [| discriminate E].
    destruct (comprehension body l g1) as [[bs' | e] g2] eqn:Ebs;
      [| discriminate E].
    unfold ret in E. injection E as <- <-.
    constructor; [exact (Hbody _ _ _ _ Eb) | exact (IH _ _ Ebs)].
Qed.

Lemma selectbox_in_themes (index : nat) : In (St.selectbox themes index) themes.
Proof.
  unfold St.selectbox, themes.
  do 4 (destruct index as [| index]; [cbn; tauto|]).
  destruct index; cbn; tauto.
Qed.

(** X11: the theme the script generates with is always one of the four of
    the select box, and every review a run stores contains an object phrase
    of that theme's pool. *)
Theorem stored_reviews_carry_selected_theme
    (polarity_scores : string -> scores) (w : widgets)
    (state : session_state) (g g' : rng)
    (rs : list string) (shown : option report) :
  generate_clicked w = true ->
  script polarity_scores w state g = (Returned (Some rs, shown), g') ->
  let theme := St.selectbox themes (theme_index w) in
  In theme themes /\
  Forall (fun sentence =>
            exists obj, In obj (theme_objects theme) /\
                        PyStr.Substring obj sentence) rs.
Proof.
  intros Hgen E. cbv zeta. split; [apply selectbox_in_themes|].
  destruct (script_cases polarity_scores w state g) as (n & _ & H).
  rewrite Hgen in H. destruct H as (rs' & r & g1 & Er & _ & _ & E').
  rewrite E' in E. injection E as <- _ _.
  unfold reviews in Er.
  eapply comprehension_forall; [| exact Er].
  intros a g0 s g2 Es. cbv beta in Es.
  destruct (generate_fluent_review_returns
              (St.selectbox themes (theme_index w)) g0)
    as (subj & verb & obj & adj & ctx & s' & g3 & E0 & _ & _ & Hobj & _ & _ & Hs).
  rewrite E0 in Es. injection Es as <- _.
  exists obj. split; [exact Hobj|].
  eapply templates_contain_object; exact Hs.
Qed.

Example stored_reviews_carry_selected_theme_witness :
  true = true /\
  exists rs shown g',
    script (fun _ => {| compound := 0%float |})
           {| refresh_clicked := false; theme_index := 1;
              slider_value := None; generate_clicked := true |}
           None [2; 3; 5; 7; 11; 13]%N
    = (Returned (Some rs, shown), g') /\
    In "Service" themes /\
    Forall (fun sentence =>
              exists obj, In obj (theme_objects "Service") /\
                          PyStr.Substring obj sentence) rs.
Proof.
  split; [reflexivity|].
  destruct (script (fun _ => {| compound := 0%float |})
              {| refresh_clicked := false; theme_index := 1;
                 slider_value := None; generate_clicked := true |}
              None [2; 3; 5; 7; 11; 13]%N)
    as [[[[rs |] shown] | e] g'] eqn:E;
    [| vm_compute in E; discriminate E | vm_compute in E; discriminate E].
  exists rs, shown, g'. split; [reflexivity|].
  exact (stored_reviews_carry_selected_theme
           (fun _ => {| compound := 0%float |})
           {| refresh_clicked := false; theme_index := 1;
              slider_value := None; generate_clicked := true |}
           None _ g' rs shown eq_refl E).
Defined.

(* ================================================================== *)
(** * The column order of the displayed table *)
(* ================================================================== *)






